(** * NFC attendance API (src/server.js): a shallow embedding

    The Express handlers of [src/server.js] are modelled as functions over
    the PostgreSQL store.  A storage call is a value of [op]; whether the
    database (or the network, or a concurrent transaction) makes that call
    fail is decided by an [oracle], which sees the tables as they are when
    the call is issued and returns the SQLSTATE code it raises, if any.
    Every handler records the calls it issues, in order, in a trace. *)

From Stdlib Require Import String Ascii List ZArith Bool Lia Sorted Permutation.
Import ListNotations.
Open Scope string_scope.
Set Warnings "-register-all".

Module Attendance.

(** ** Request and response values *)

(** A value of the parsed JSON request body ([req.body.x]).  Arrays are
    arrays of strings: the shape of the token list the endpoint accepts. *)
Inductive reqval :=
| RUndefined
| RNull
| RBool (b : bool)
| RNum (z : Z)
| RStr (s : string)
| RArr (xs : list string)
| RObj.

(** JavaScript's [!v] is [negb (truthy v)]. *)
Definition truthy (v : reqval) : bool :=
  match v with
  | RUndefined | RNull => false
  | RBool b => b
  | RNum z => negb (Z.eqb z 0)
  | RStr s => negb (String.eqb s "")
  | RArr _ | RObj => true
  end.

Definition is_array (v : reqval) : bool :=
  match v with RArr _ => true | _ => false end.

(** A JSON payload sent with [res.json]. *)
Inductive json :=
| JSNull
| JSBool (b : bool)
| JSNum (z : Z)
| JSStr (s : string)
| JSArr (xs : list json)
| JSObj (fs : list (string * json)).

Record response := mkResponse { status : Z; body : json }.

(** Property access [body.k] on a payload. *)
Definition field (k : string) (j : json) : option json :=
  match j with
  | JSObj fs =>
      match find (fun kv => String.eqb (fst kv) k) fs with
      | Some kv => Some (snd kv)
      | None => None
      end
  | _ => None
  end.

(** Decimal rendering of a count, as in a template literal. *)
Fixpoint string_of_nat_aux (fuel n : nat) (acc : string) : string :=
  match fuel with
  | O => acc
  | S f =>
      let acc' := String (ascii_of_nat (48 + n mod 10)) acc in
      match n / 10 with
      | O => acc'
      | m => string_of_nat_aux f m acc'
      end
  end.

Definition string_of_nat (n : nat) : string := string_of_nat_aux (S n) n "".

(** ** The store (schema of [/api/init-db]) *)

Record person := mkPerson {
  person_id : nat;
  name : string;
  rfid_tag : string;
  role : string;
  id_number : option string  (* [id_number VARCHAR(20) UNIQUE], nullable *)
}.

Record section := mkSection { section_id : nat; section_name : string }.

Record attendance_row := mkAttendance {
  attendance_id : nat;
  a_person_id : nat;
  a_classroom_id : reqval;  (* the [classroom_id] parameter as sent *)
  a_timestamp : nat         (* [NOW()] *)
}.

Record tables := mkTables {
  persons : list person;
  sections : list section;
  student_sections : list (nat * nat);  (* (person_id, section_id) *)
  attendance : list attendance_row
}.

(** The SERIAL sequences.  [nextval] is not transactional: a rollback
    restores the tables but not the sequences. *)
Record seqs := mkSeqs { person_seq : nat; section_seq : nat; attendance_seq : nat }.

Record db := mkDb { tbl : tables; sq : seqs }.

(** ** Storage calls *)

Inductive op :=
| OpSelectStudents (tags : list string)
| OpInsertAttendance (pid : nat) (cid : reqval)
| OpConnect
| OpBegin
| OpSelectTag (t : string)
| OpSelectIdNumber (i : string)
| OpSelectSection (s : string)
| OpInsertSection (s : string)
| OpInsertPerson (n t i : string)
| OpInsertLink (pid sid : nat)
| OpCommit
| OpRollback
| OpRelease.

(** The error (SQLSTATE code) a storage call raises, if any. *)
Definition oracle := tables -> op -> option string.

(** A store that never fails. *)
Definition no_fail : oracle := fun _ _ => None.

Definition add_person (t : tables) (p : person) : tables :=
  mkTables (persons t ++ [p]) (sections t) (student_sections t) (attendance t).
Definition add_section (t : tables) (s : section) : tables :=
  mkTables (persons t) (sections t ++ [s]) (student_sections t) (attendance t).
Definition add_link (t : tables) (l : nat * nat) : tables :=
  mkTables (persons t) (sections t) (student_sections t ++ [l]) (attendance t).
Definition add_attendance (t : tables) (a : attendance_row) : tables :=
  mkTables (persons t) (sections t) (student_sections t) (attendance t ++ [a]).

(** ** POST /api/verify-attendance *)

Record verify_req := mkVerifyReq { rfid_tags_in : reqval; classroom_id_in : reqval }.

(** A row of the SELECT of lines 57-63. *)
Record verify_row := mkRow {
  row_person_id : nat;
  row_name : string;
  row_rfid_tag : string;
  row_id_number : option string;
  row_section_name : option string
}.

Definition section_name_of (secs : list section) (sid : nat) : option string :=
  match find (fun s => Nat.eqb (section_id s) sid) secs with
  | Some s => Some (section_name s)
  | None => None
  end.

(** [persons p LEFT JOIN student_sections ss LEFT JOIN sections s]: one
    row per link of the person, or one row with a NULL section. *)
Definition person_rows (t : tables) (p : person) : list verify_row :=
  match filter (fun l => Nat.eqb (fst l) (person_id p)) (student_sections t) with
  | [] => [mkRow (person_id p) (name p) (rfid_tag p) (id_number p) None]
  | links =>
      map (fun l => mkRow (person_id p) (name p) (rfid_tag p) (id_number p)
                          (section_name_of (sections t) (snd l))) links
  end.

(** [x = ANY($1)] and [Array.prototype.includes] on strings. *)
Definition tag_in (tags : list string) (x : string) : bool :=
  existsb (String.eqb x) tags.

(** [WHERE p.rfid_tag = ANY($1) AND p.role = 'student'] (row order: the
    scan order of [persons]; the query has no ORDER BY). *)
Definition select_students (t : tables) (tags : list string) : list verify_row :=
  flat_map (fun p => if String.eqb (role p) "student" && tag_in tags (rfid_tag p)
                     then person_rows t p else [])
           (persons t).

(** [verifiedStudents.map(student => pool.query('INSERT INTO attendance ...'))]
    followed by [Promise.all]: every insert is issued; the boolean tells
    whether one of them was rejected. *)
Fixpoint insert_attendance_all (fail : oracle) (now : nat) (cid : reqval)
    (rows : list verify_row) (d : db) : db * list op * bool :=
  match rows with
  | [] => (d, [], false)
  | r :: rest =>
      let o := OpInsertAttendance (row_person_id r) cid in
      let aid := attendance_seq (sq d) in
      let s' := mkSeqs (person_seq (sq d)) (section_seq (sq d)) (S aid) in
      let d1 := match fail (tbl d) o with
                | Some _ => mkDb (tbl d) s'
                | None => mkDb (add_attendance (tbl d)
                                  (mkAttendance aid (row_person_id r) cid now)) s'
                end in
      let '(d2, tr, rej) := insert_attendance_all fail now cid rest d1 in
      (d2, o :: tr, match fail (tbl d) o with Some _ => true | None => rej end)
  end.

Definition student_json (r : verify_row) : json :=
  JSObj [("name", JSStr (row_name r));
         ("section", JSStr (match row_section_name r with
                            | Some s => if String.eqb s "" then "Unknown" else s
                            | None => "Unknown"
                            end));
         ("rfid_tag", JSStr (row_rfid_tag r));
         ("id_number", match row_id_number r with
                       | Some i => JSStr i
                       | None => JSNull
                       end);
         ("status", JSStr "Present")].

Definition err_response (code : Z) (msg : string) : response :=
  mkResponse code (JSObj [("success", JSBool false); ("error", JSStr msg)]).

Definition verify_invalid : response := err_response 400 "Invalid RFID tags array".
Definition verify_failed : response := err_response 500 "Failed to verify attendance".

Definition verify_attendance (fail : oracle) (now : nat) (req : verify_req) (d : db)
    : response * db * list op :=
  let rfid_tags := rfid_tags_in req in
  let classroom_id := match classroom_id_in req with
                      | RUndefined => RNum 1
                      | v => v
                      end in
  if negb (truthy rfid_tags) || negb (is_array rfid_tags) then (verify_invalid, d, [])
  else
    match rfid_tags with
    | RArr tokens =>
        let q := OpSelectStudents tokens in
        match fail (tbl d) q with
        | Some _ => (verify_failed, d, [q])
        | None =>
            let verifiedStudents := select_students (tbl d) tokens in
            let foundTags := map row_rfid_tag verifiedStudents in
            let unrecognizedTags := filter (fun x => negb (tag_in foundTags x)) tokens in
            let '(d', tr, rejected) :=
              insert_attendance_all fail now classroom_id verifiedStudents d in
            if rejected then (verify_failed, d', q :: tr)
            else
              (mkResponse 200 (JSObj
                 [("success", JSBool true);
                  ("total_scans", JSNum (Z.of_nat (length tokens)));
                  ("verified_students", JSArr (map student_json verifiedStudents));
                  ("unrecognized", JSArr (map JSStr unrecognizedTags));
                  ("message", JSStr (string_of_nat (length verifiedStudents)
                                     ++ " students verified, "
                                     ++ string_of_nat (length unrecognizedTags)
                                     ++ " unrecognized tags"))]),
               d', q :: tr)
        end
    | _ => (verify_invalid, d, [])
    end.

(** ** POST /api/add-student *)

(** The body fields, each absent or a JSON string (the shape the endpoint
    documents). *)
Record add_student_body := mkAddStudent {
  in_name : option string;
  in_rfid_tag : option string;
  in_section : option string;
  in_id_number : option string
}.

(** [!x] on an absent or string field. *)
Definition present (x : option string) : bool :=
  match x with
  | None => false
  | Some s => negb (String.eqb s "")
  end.

(** State of the dedicated client: the tables as the open transaction
    sees them, the tables as committed, the sequences, and the calls
    issued so far. *)
Record txst := mkTx { cur : tables; committed : tables; seqv : seqs; trace : list op }.

(** How the [try] block ends: normally, by [return res...json(...)], or by
    a rejected [await] (the SQLSTATE code). *)
Inductive outcome (A : Type) :=
| Done (a : A)
| Returned (r : response)
| Thrown (code : string).
Arguments Done {A} a.
Arguments Returned {A} r.
Arguments Thrown {A} code.

Definition M (A : Type) := txst -> outcome A * txst.

Definition mret {A} (a : A) : M A := fun st => (Done a, st).

Definition mbind {A B} (m : M A) (k : A -> M B) : M B :=
  fun st => match m st with
            | (Done a, st') => k a st'
            | (Returned r, st') => (Returned r, st')
            | (Thrown c, st') => (Thrown c, st')
            end.

Notation "x <- m ;; k" := (mbind m (fun x => k))
  (at level 61, m at next level, right associativity).

Definition early_return {A} (r : response) : M A := fun st => (Returned r, st).

Definition log (o : op) (st : txst) : txst :=
  mkTx (cur st) (committed st) (seqv st) ((trace st ++ [o])%list).

(** [await client.query(...)]: the call is issued, then either rejected by
    the store or answered by [f]. *)
Definition query {A} (fail : oracle) (o : op) (f : txst -> A * txst) : M A :=
  fun st => let st1 := log o st in
            match fail (cur st) o with
            | Some c => (Thrown c, st1)
            | None => let '(a, st2) := f st1 in (Done a, st2)
            end.

Definition select_by_tag (t : tables) (x : string) : list nat :=
  map person_id (filter (fun p => String.eqb (rfid_tag p) x) (persons t)).

Definition select_by_id_number (t : tables) (x : string) : list nat :=
  map person_id (filter (fun p => match id_number p with
                                  | Some i => String.eqb i x
                                  | None => false
                                  end) (persons t)).

Definition select_section (t : tables) (x : string) : list nat :=
  map section_id (filter (fun s => String.eqb (section_name s) x) (sections t)).

(** [INSERT INTO sections ... RETURNING section_id]: [nextval] first. *)
Definition insert_section (fail : oracle) (x : string) : M nat :=
  fun st =>
    let o := OpInsertSection x in
    let sid := section_seq (seqv st) in
    let s' := mkSeqs (person_seq (seqv st)) (S sid) (attendance_seq (seqv st)) in
    match fail (cur st) o with
    | Some c => (Thrown c, mkTx (cur st) (committed st) s' ((trace st ++ [o])%list))
    | None => (Done sid, mkTx (add_section (cur st) (mkSection sid x)) (committed st) s'
                              ((trace st ++ [o])%list))
    end.

(** [INSERT INTO persons ... VALUES ($1, $2, 'student', $4) RETURNING person_id]. *)
Definition insert_person (fail : oracle) (n t i : string) : M nat :=
  fun st =>
    let o := OpInsertPerson n t i in
    let pid := person_seq (seqv st) in
    let s' := mkSeqs (S pid) (section_seq (seqv st)) (attendance_seq (seqv st)) in
    match fail (cur st) o with
    | Some c => (Thrown c, mkTx (cur st) (committed st) s' ((trace st ++ [o])%list))
    | None => (Done pid, mkTx (add_person (cur st) (mkPerson pid n t "student" (Some i)))
                              (committed st) s' ((trace st ++ [o])%list))
    end.

Definition insert_link (fail : oracle) (pid sid : nat) : M unit :=
  query fail (OpInsertLink pid sid)
        (fun st => (tt, mkTx (add_link (cur st) (pid, sid)) (committed st) (seqv st) (trace st))).

Definition missing_fields : response :=
  err_response 400 "Missing required fields: name, rfid_tag, section, id_number".
Definition tag_exists : response := err_response 400 "RFID tag already exists".
Definition id_exists : response := err_response 400 "ID number already exists".
Definition duplicate_response : response :=
  err_response 400 "Duplicate RFID tag or ID number".
Definition add_failed : response := err_response 500 "Failed to add student".

Definition added_response (pid : nat) (n t s i : string) : response :=
  mkResponse 200 (JSObj
    [("success", JSBool true);
     ("message", JSStr ("Student " ++ n ++ " added successfully"));
     ("student", JSObj [("person_id", JSNum (Z.of_nat pid)); ("name", JSStr n);
                        ("rfid_tag", JSStr t); ("section", JSStr s);
                        ("id_number", JSStr i)])]).

(** The [try] block of lines 106-171. *)
Definition add_student_try (fail : oracle) (b : add_student_body) : M response :=
  _ <- query fail OpBegin (fun st => (tt, st)) ;;
  if negb (present (in_name b)) || negb (present (in_rfid_tag b))
     || negb (present (in_section b)) || negb (present (in_id_number b))
  then early_return missing_fields
  else
  match in_name b, in_rfid_tag b, in_section b, in_id_number b with
  | Some n, Some t, Some s, Some i =>
    existingTag <- query fail (OpSelectTag t) (fun st => (select_by_tag (cur st) t, st)) ;;
    if Nat.ltb 0 (length existingTag) then early_return tag_exists else
    existingId <- query fail (OpSelectIdNumber i)
                        (fun st => (select_by_id_number (cur st) i, st)) ;;
    if Nat.ltb 0 (length existingId) then early_return id_exists else
    sectionResult <- query fail (OpSelectSection s)
                           (fun st => (select_section (cur st) s, st)) ;;
    sectionId <- match sectionResult with
                 | [] => insert_section fail s
                 | sid :: _ => mret sid
                 end ;;
    personId <- insert_person fail n t i ;;
    _ <- insert_link fail personId sectionId ;;
    _ <- query fail OpCommit
               (fun st => (tt, mkTx (cur st) (cur st) (seqv st) (trace st))) ;;
    mret (added_response personId n t s i)
  | _, _, _, _ => early_return missing_fields
  end.

(** The whole handler.  [pool.connect()] sits outside the [try]: when it
    is rejected, or when the ROLLBACK of the [catch] is, the async handler
    rejects and no response is sent ([None]).  The returned store keeps
    the committed tables only; an early return inside the [try] releases
    the client after BEGIN with neither COMMIT nor ROLLBACK, which the
    trace shows (the transaction is left open on the pooled client). *)
Definition add_student (fail : oracle) (b : add_student_body) (d : db)
    : option response * db * list op :=
  match fail (tbl d) OpConnect with
  | Some _ => (None, d, [OpConnect])
  | None =>
    let st0 := mkTx (tbl d) (tbl d) (sq d) [OpConnect] in
    match add_student_try fail b st0 with
    | (Done r, st1) | (Returned r, st1) =>
        (Some r, mkDb (committed st1) (seqv st1), (trace st1 ++ [OpRelease])%list)
    | (Thrown c, st1) =>
        let st2 := log OpRollback st1 in
        match fail (cur st1) OpRollback with
        | Some _ => (None, mkDb (committed st2) (seqv st2), (trace st2 ++ [OpRelease])%list)
        | None =>
            let st3 := mkTx (committed st2) (committed st2) (seqv st2) (trace st2) in
            (Some (if String.eqb c "23505" then duplicate_response else add_failed),
             mkDb (committed st3) (seqv st3), (trace st3 ++ [OpRelease])%list)
        end
    end
  end.

(** ** The remaining routes

    Each read route issues one query; only its rows ([Some rows]) or its
    rejection ([None]) shape the response. *)

Definition health_response : response :=
  mkResponse 200 (JSObj [("status", JSStr "OK");
                         ("message", JSStr "NFC Attendance API is running")]).

Definition get_sections (res : option (list json)) : response :=
  match res with
  | Some rows => mkResponse 200 (JSObj [("success", JSBool true); ("sections", JSArr rows)])
  | None => err_response 500 "Failed to fetch sections"
  end.

Definition get_attendance (res : option (list json)) : response :=
  match res with
  | Some rows => mkResponse 200 (JSObj [("success", JSBool true); ("records", JSArr rows);
                                        ("count", JSNum (Z.of_nat (length rows)))])
  | None => err_response 500 "Failed to fetch attendance records"
  end.

Definition get_students (res : option (list json)) : response :=
  match res with
  | Some rows => mkResponse 200 (JSObj [("success", JSBool true); ("students", JSArr rows)])
  | None => err_response 500 "Failed to fetch students"
  end.

Definition init_db (ok : bool) : response :=
  if ok then mkResponse 200 (JSObj [("success", JSBool true);
                                    ("message", JSStr "Database initialized successfully")])
  else err_response 500 "Failed to initialize database".

(** The error-handling middleware and the catch-all route. *)
Definition unhandled_error : response := err_response 500 "Internal server error".
Definition not_found : response := err_response 404 "Endpoint not found".

Inductive request :=
| GetHealth
| GetSections (res : option (list json))
| PostVerifyAttendance (fail : oracle) (now : nat) (req : verify_req) (d : db)
| PostAddStudent (fail : oracle) (b : add_student_body) (d : db)
| GetAttendance (res : option (list json))
| GetStudents (res : option (list json))
| PostInitDb (ok : bool)
| UnhandledError
| UnknownRoute.

(** The response the app sends, if any.  [None] is a handler whose promise
    rejects: Express 4 does not catch that rejection, so no response is
    sent, and under Node's default handling of unhandled rejections the
    process exits, so that later requests go unanswered as well. *)
Definition dispatch (r : request) : option response :=
  match r with
  | GetHealth => Some health_response
  | GetSections res => Some (get_sections res)
  | PostVerifyAttendance fail now req d =>
      let '(resp, _, _) := verify_attendance fail now req d in Some resp
  | PostAddStudent fail b d => let '(resp, _, _) := add_student fail b d in resp
  | GetAttendance res => Some (get_attendance res)
  | GetStudents res => Some (get_students res)
  | PostInitDb ok => Some (init_db ok)
  | UnhandledError => Some unhandled_error
  | UnknownRoute => Some not_found
  end.

(** ** Read routes and bootstrap, evaluated over the store *)

(** The comparison [a <= b] of the database's collation.  The repository
    does not fix the collation (it is the database default), so the read
    routes take it as a parameter. *)
Definition collation := string -> string -> bool.

(** [ORDER BY key]: a sort of the rows on the key under the collation
    [le] (insertion sort; the order of ties is not specified by SQL). *)
Section OrderBy.
Context {A : Type} (le : collation) (key : A -> string).

Fixpoint insert_by (x : A) (l : list A) : list A :=
  match l with
  | [] => [x]
  | y :: l' => if le (key x) (key y) then x :: l else y :: insert_by x l'
  end.

Fixpoint order_by (l : list A) : list A :=
  match l with
  | [] => []
  | x :: l' => insert_by x (order_by l')
  end.
End OrderBy.

(** GET /api/sections: [SELECT * FROM sections ORDER BY section_name]; [ok]
    tells whether the query went through. *)
Definition section_json (s : section) : json :=
  JSObj [("section_id", JSNum (Z.of_nat (section_id s)));
         ("section_name", JSStr (section_name s))].

Definition sections_rows (le : collation) (t : tables) : list section :=
  order_by le section_name (sections t).

Definition get_sections_run (le : collation) (ok : bool) (t : tables) : response :=
  get_sections (if ok then Some (map section_json (sections_rows le t)) else None).

(** GET /api/students: the same LEFT JOINs as the verification query,
    [WHERE p.role = 'student'], [AND s.section_name = $1] when the query
    parameter is truthy, [ORDER BY p.name].  Query parameters are absent or
    strings. *)
Definition students_rows (le : collation) (t : tables) (section_name_q : option string)
    : list verify_row :=
  let rows := flat_map (fun p => if String.eqb (role p) "student" then person_rows t p else [])
                       (persons t) in
  let rows := if present section_name_q
              then filter (fun r => match row_section_name r, section_name_q with
                                    | Some x, Some q => String.eqb x q
                                    | _, _ => false
                                    end) rows
              else rows in
  order_by le row_name rows.

Definition student_row_json (r : verify_row) : json :=
  JSObj [("person_id", JSNum (Z.of_nat (row_person_id r)));
         ("name", JSStr (row_name r));
         ("rfid_tag", JSStr (row_rfid_tag r));
         ("id_number", match row_id_number r with Some i => JSStr i | None => JSNull end);
         ("section_name", match row_section_name r with
                          | Some x => JSStr x
                          | None => JSNull
                          end)].

Definition get_students_run (le : collation) (ok : bool) (t : tables)
    (section_name_q : option string) : response :=
  get_students (if ok then Some (map student_row_json (students_rows le t section_name_q))
                else None).

(** GET /api/attendance: the query text and parameters built from the
    optional [date], [section_name] and [classroom_id] query parameters
    (the SELECT is written on one line). *)
Record attendance_filters := mkAttendanceFilters {
  f_date : option string;
  f_section_name : option string;
  f_classroom_id : option string
}.

Definition attendance_select : string :=
  "SELECT a.attendance_id, a.timestamp, p.name, p.id_number, p.rfid_tag, s.section_name, c.room_number FROM attendance a JOIN persons p ON a.person_id = p.person_id LEFT JOIN student_sections ss ON p.person_id = ss.person_id LEFT JOIN sections s ON ss.section_id = s.section_id LEFT JOIN classrooms c ON a.classroom_id = c.classroom_id WHERE 1=1".

(** [if (x) { query += ` AND <cond> = $${paramCount}`; params.push(x);
    paramCount++; }] *)
Definition add_filter (cond : string) (x : option string)
    (acc : string * list string * nat) : string * list string * nat :=
  let '(query, params, paramCount) := acc in
  match x with
  | Some v =>
      if present x
      then ((query ++ " AND " ++ cond ++ " = $" ++ string_of_nat paramCount)%string,
            (params ++ [v])%list, S paramCount)
      else acc
  | None => acc
  end.

Definition build_attendance_query (f : attendance_filters) : string * list string :=
  let acc := (attendance_select, [], 1) in
  let acc := add_filter "DATE(a.timestamp)" (f_date f) acc in
  let acc := add_filter "s.section_name" (f_section_name f) acc in
  let acc := add_filter "a.classroom_id" (f_classroom_id f) acc in
  let '(query, params, _) := acc in
  ((query ++ " ORDER BY a.timestamp DESC")%string, params).

(** POST /api/init-db.  The tables are taken to exist already (CREATE TABLE
    IF NOT EXISTS); the two seeding INSERTs run in the one multi-statement
    query, hence together or not at all ([ok]). *)
Record classrooms_table := mkClassrooms {
  classrooms : list (nat * string);  (* (classroom_id, room_number) *)
  classroom_seq : nat
}.

Definition default_sections : list string :=
  ["CS-A"; "CS-B"; "EE-A"; "EE-B"; "ME-A"; "ME-B"].

(** [INSERT INTO sections (section_name) SELECT unnest(ARRAY[...])]. *)
Fixpoint sections_from (sid : nat) (names : list string) : list section :=
  match names with
  | [] => []
  | x :: rest => mkSection sid x :: sections_from (S sid) rest
  end.

Definition init_db_run (ok : bool) (d : db) (c : classrooms_table)
    : response * db * classrooms_table :=
  if negb ok then (init_db false, d, c)
  else
    let c' := if existsb (fun r => String.eqb (snd r) "Default Room") (classrooms c)
              then c
              else mkClassrooms ((classrooms c ++ [(classroom_seq c, "Default Room")])%list)
                                (S (classroom_seq c)) in
    let d' := match sections (tbl d) with
              | [] => mkDb (mkTables (persons (tbl d))
                                     (sections_from (section_seq (sq d)) default_sections)
                                     (student_sections (tbl d)) (attendance (tbl d)))
                           (mkSeqs (person_seq (sq d))
                                   (section_seq (sq d) + length default_sections)
                                   (attendance_seq (sq d)))
              | _ :: _ => d
              end in
    (init_db true, d', c').

(** ** Statements of the specification, over the payloads and tables *)

(** Spec side (§4.1): an input token has a corresponding enrolled student. *)
Definition enrolled_student_tag (t : tables) (x : string) : bool :=
  existsb (fun p => String.eqb (role p) "student" && String.eqb (rfid_tag p) x) (persons t).

(** Spec side (§4.1): the input tokens with no corresponding student, in
    input order, duplicates kept. *)
Definition spec_unmatched (t : tables) (tokens : list string) : list string :=
  filter (fun x => negb (enrolled_student_tag t x)) tokens.

(** Spec side (§4.1): the enrolled students whose tag is in the batch. *)
Definition matched_students (t : tables) (tokens : list string) : list person :=
  filter (fun p => String.eqb (role p) "student" && tag_in tokens (rfid_tag p)) (persons t).

(** Spec side (§8): [matched.length + unmatched.length == total_scans] on a
    verification payload. *)
Definition counts_add_up (j : json) : bool :=
  match field "verified_students" j, field "unrecognized" j, field "total_scans" j with
  | Some (JSArr m), Some (JSArr u), Some (JSNum total) =>
      Z.eqb (Z.of_nat (length m + length u)) total
  | _, _, _ => false
  end.

(** Spec side (§6): a payload carries a boolean [success] flag, and an
    error string when the flag is false. *)
Definition flag_payload (j : json) : bool :=
  match field "success" j with
  | Some (JSBool true) => true
  | Some (JSBool false) =>
      match field "error" j with Some (JSStr _) => true | _ => false end
  | _ => false
  end.

(** Spec side (§4.2): a required field is missing or empty. *)
Definition missing (x : option string) : Prop := x = None \/ x = Some "".

(** The non-NULL id numbers of [persons]. *)
Definition id_numbers (t : tables) : list string :=
  flat_map (fun p => match id_number p with Some i => [i] | None => [] end) (persons t).

(** The attendance rows written for [rows], with consecutive ids from [aid]. *)
Fixpoint attendance_rows_from (aid : nat) (cid : reqval) (now : nat)
    (rows : list verify_row) : list attendance_row :=
  match rows with
  | [] => []
  | r :: rest => mkAttendance aid (row_person_id r) cid now
                 :: attendance_rows_from (S aid) cid now rest
  end.

(** The filters of GET /api/attendance that are applied, in code order. *)
Definition active_filters (f : attendance_filters) : list (string * string) :=
  flat_map (fun cx => match snd cx with
                      | Some v => if present (snd cx) then [(fst cx, v)] else []
                      | None => []
                      end)
           [("DATE(a.timestamp)", f_date f); ("s.section_name", f_section_name f);
            ("a.classroom_id", f_classroom_id f)].

(** [ AND c1 = $k AND c2 = $k+1 ...]. *)
Fixpoint numbered_clauses (k : nat) (fs : list (string * string)) : string :=
  match fs with
  | [] => ""
  | (c, _) :: rest => " AND " ++ c ++ " = $" ++ string_of_nat k ++ numbered_clauses (S k) rest
  end.

(** Number of attendance rows of a person. *)
Definition events_of (t : tables) (pid : nat) : nat :=
  length (filter (fun a => Nat.eqb (a_person_id a) pid) (attendance t)).

(** A concurrent enrollment of [other], committed between our pre-checks
    and our insert: the insert of a person with the same tag or the same
    id number violates the UNIQUE constraint. *)
Definition concurrent_enrollment (other : person) : oracle :=
  fun _ o => match o with
             | OpInsertPerson _ x i =>
                 if String.eqb x (rfid_tag other)
                    || match id_number other with
                       | Some j => String.eqb i j
                       | None => false
                       end
                 then Some "23505" else None
             | _ => None
             end.

(** ** Sample stores *)

Definition empty_tables : tables := mkTables [] [] [] [].
Definition empty_db : db := mkDb empty_tables (mkSeqs 1 1 1).

Definition alice_body : add_student_body :=
  mkAddStudent (Some "Alice") (Some "RFID1") (Some "CS-A") (Some "S001").

Definition alice_db : db := let '(_, d, _) := add_student no_fail alice_body empty_db in d.

(** A student linked to two sections (the link table is many-to-many). *)
Definition two_links_db : db :=
  mkDb (mkTables [mkPerson 1 "Bob" "T1" "student" (Some "S002")]
                 [mkSection 1 "CS-A"; mkSection 2 "CS-B"]
                 [(1, 1); (1, 2)] [])
       (mkSeqs 2 3 1).

(** Enrollments committed by a concurrent request: same tag as Alice's,
    or same id number. *)
Definition carol_same_tag : person := mkPerson 9 "Carol" "RFID1" "student" (Some "S009").
Definition carol_same_id : person := mkPerson 9 "Carol" "RFID7" "student" (Some "S001").

(** A student entered without a section link. *)
Definition dana_db : db :=
  mkDb (mkTables [mkPerson 1 "Dana" "T9" "student" None] [] [] []) (mkSeqs 2 1 1).

Definition begin_dropped : oracle :=
  fun _ o => match o with OpBegin => Some "57P01" | _ => None end.

Definition bob_body : add_student_body :=
  mkAddStudent (Some "Bob") (Some "RFID2") (Some "CS-B") (Some "S002").

Example alice_enrolled :
  tbl alice_db = mkTables [mkPerson 1 "Alice" "RFID1" "student" (Some "S001")]
                          [mkSection 1 "CS-A"] [(1, 1)] [].
Proof. reflexivity. Qed.

Example end_to_end :
  verify_attendance no_fail 7 (mkVerifyReq (RArr ["RFID1"; "RFID9"]) RUndefined) alice_db
  = (mkResponse 200 (JSObj
       [("success", JSBool true); ("total_scans", JSNum 2);
        ("verified_students",
          JSArr [JSObj [("name", JSStr "Alice"); ("section", JSStr "CS-A");
                        ("rfid_tag", JSStr "RFID1"); ("id_number", JSStr "S001");
                        ("status", JSStr "Present")]]);
        ("unrecognized", JSArr [JSStr "RFID9"]);
        ("message", JSStr "1 students verified, 1 unrecognized tags")]),
     mkDb (add_attendance (tbl alice_db) (mkAttendance 1 1 (RNum 1) 7)) (mkSeqs 2 2 2),
     [OpSelectStudents ["RFID1"; "RFID9"]; OpInsertAttendance 1 (RNum 1)]).
Proof. reflexivity. Qed.

Example string_of_nat_120 : string_of_nat 120 = "120".
Proof. reflexivity. Qed.

(** ** Lemmas on the verification query *)

Lemma select_students_nil (t : tables) : select_students t [] = [].
Proof.
  unfold select_students. induction (persons t) as [|p ps IH]; simpl.
  - reflexivity.
  - rewrite andb_false_r. exact IH.
Qed.

Lemma insert_attendance_all_shape fail now cid rows d :
  let '(d2, tr, _) := insert_attendance_all fail now cid rows d in
  persons (tbl d2) = persons (tbl d) /\ sections (tbl d2) = sections (tbl d)
  /\ student_sections (tbl d2) = student_sections (tbl d)
  /\ (exists fresh, attendance (tbl d2) = (attendance (tbl d) ++ fresh)%list
                    /\ Forall (fun a => a_classroom_id a = cid) fresh
                    /\ length fresh <= length rows)
  /\ tr = map (fun r => OpInsertAttendance (row_person_id r) cid) rows.
Proof.
  revert d. induction rows as [|r rest IH]; intro d; simpl.
  - repeat split; auto. exists []. rewrite app_nil_r. auto.
  - set (d1 := match fail (tbl d) (OpInsertAttendance (row_person_id r) cid) with
               | Some _ => _ | None => _ end).
    specialize (IH d1).
    destruct (insert_attendance_all fail now cid rest d1) as [[d2 tr] rej].
    destruct IH as (Hp & Hs & Hl & (fresh & Ha & Hf & Hlen) & Htr).
    subst d1. subst tr.
    destruct (fail (tbl d) _); simpl in *;
      (split; [assumption|split; [assumption|split; [assumption|split; [|reflexivity]]]]).
    + exists fresh. repeat split; auto; lia.
    + exists (mkAttendance (attendance_seq (sq d)) (row_person_id r) cid now :: fresh).
      rewrite Ha, <- app_assoc. repeat split; auto; simpl; lia.
Qed.

(** A verification request is answered by the invalid-input error, the
    storage error, or the success payload. *)
Lemma verify_attendance_cases fail now req d :
  let '(r, d', tr) := verify_attendance fail now req d in
  (r = verify_invalid /\ d' = d /\ tr = [])
  \/ r = verify_failed
  \/ exists tokens, rfid_tags_in req = RArr tokens /\
     let rows := select_students (tbl d) tokens in
     let unm := filter (fun x => negb (tag_in (map row_rfid_tag rows) x)) tokens in
     fail (tbl d) (OpSelectStudents tokens) = None /\
     r = mkResponse 200 (JSObj
           [("success", JSBool true);
            ("total_scans", JSNum (Z.of_nat (length tokens)));
            ("verified_students", JSArr (map student_json rows));
            ("unrecognized", JSArr (map JSStr unm));
            ("message", JSStr (string_of_nat (length rows) ++ " students verified, "
                               ++ string_of_nat (length unm) ++ " unrecognized tags"))]).
Proof.
  unfold verify_attendance.
  destruct (rfid_tags_in req) as [| | | | |tokens|] eqn:Ht; simpl; rewrite ?orb_true_r;
    try (left; repeat split; reflexivity).
  destruct (fail (tbl d) (OpSelectStudents tokens)) eqn:Hq; auto.
  destruct (insert_attendance_all _ _ _ _ _) as [[d' tr] rej].
  destruct rej; auto. right; right. exists tokens. auto.
Qed.

Lemma tag_in_iff (l : list string) (x : string) : tag_in l x = true <-> In x l.
Proof.
  unfold tag_in. rewrite existsb_exists. split.
  - intros [y [Hy Heq]]. apply String.eqb_eq in Heq. subst. exact Hy.
  - intro H. exists x. split; [exact H | apply String.eqb_refl].
Qed.

Lemma person_rows_tags (t : tables) (p : person) (x : string) :
  tag_in (map row_rfid_tag (person_rows t p)) x = String.eqb x (rfid_tag p).
Proof.
  unfold person_rows.
  destruct (filter _ (student_sections t)) as [|l links]; simpl.
  - apply orb_false_r.
  - rewrite map_map. simpl. unfold tag_in. simpl.
    destruct (String.eqb x (rfid_tag p)) eqn:E; simpl; [reflexivity|].
    induction links as [|l' rest IH]; simpl; [reflexivity|]. rewrite E. exact IH.
Qed.

Lemma found_tags_select (t : tables) (tokens : list string) (x : string) :
  tag_in (map row_rfid_tag (select_students t tokens)) x
  = existsb (fun p => String.eqb (role p) "student" && tag_in tokens (rfid_tag p)
                      && String.eqb x (rfid_tag p)) (persons t).
Proof.
  unfold select_students. induction (persons t) as [|p ps IH]; simpl; [reflexivity|].
  rewrite map_app. unfold tag_in in *. rewrite existsb_app, IH. f_equal.
  destruct (String.eqb (role p) "student" && existsb (String.eqb (rfid_tag p)) tokens);
    simpl; [apply person_rows_tags | reflexivity].
Qed.

Lemma found_tag_enrolled (t : tables) (tokens : list string) (x : string) :
  In x tokens ->
  tag_in (map row_rfid_tag (select_students t tokens)) x = enrolled_student_tag t x.
Proof.
  intro Hx. rewrite found_tags_select. unfold enrolled_student_tag.
  induction (persons t) as [|p ps IH]; simpl; [reflexivity|]. rewrite IH. f_equal.
  destruct (String.eqb (role p) "student"); simpl; [|reflexivity].
  destruct (String.eqb x (rfid_tag p)) eqn:E.
  - apply String.eqb_eq in E. subst. rewrite String.eqb_refl.
    rewrite (proj2 (tag_in_iff tokens (rfid_tag p)) Hx). reflexivity.
  - rewrite andb_false_r. symmetry. apply String.eqb_neq.
    intro Heq. apply String.eqb_neq in E. auto.
Qed.

(** With at most one link per matched student, each matched student
    contributes one row. *)
Lemma select_students_one_link (t : tables) (tokens : list string) :
  (forall p, In p (matched_students t tokens) ->
     length (filter (fun l => Nat.eqb (fst l) (person_id p)) (student_sections t)) <= 1) ->
  map row_rfid_tag (select_students t tokens) = map rfid_tag (matched_students t tokens).
Proof.
  unfold select_students, matched_students.
  induction (persons t) as [|p ps IH]; intro Hle; simpl in *; [reflexivity|].
  destruct (String.eqb (role p) "student" && tag_in tokens (rfid_tag p)); simpl in *.
  - rewrite map_app, IH by (intros q Hq; apply Hle; right; exact Hq).
    f_equal. specialize (Hle p (or_introl eq_refl)). unfold person_rows.
    destruct (filter _ (student_sections t)) as [|l [|l' rest]]; simpl in *; auto; lia.
  - apply IH. exact Hle.
Qed.

Lemma filter_split_length {A} (f : A -> bool) (l : list A) :
  length (filter f l) + length (filter (fun x => negb (f x)) l) = length l.
Proof. induction l as [|a l IH]; simpl; [reflexivity|]. destruct (f a); simpl; lia. Qed.

(** ** Verification claims *)

(** C6: a verification request whose [rfid_tags] is missing or not an
    array is answered by the invalid-input error (400, "Invalid RFID tags
    array") before any storage call: no call is issued and the store is
    left as it was. *)
Theorem verify_malformed_tokens_rejected (fail : oracle) (now : nat) (req : verify_req) (d : db)
  (Hbad : is_array (rfid_tags_in req) = false) :
  verify_attendance fail now req d = (verify_invalid, d, []).
Proof.
  unfold verify_attendance.
  destruct (rfid_tags_in req); try discriminate; simpl; rewrite ?orb_true_r; reflexivity.
Qed.

Lemma verify_malformed_tokens_rejected_witness :
  verify_attendance no_fail 0 (mkVerifyReq RUndefined RUndefined) alice_db
  = (verify_invalid, alice_db, []).
Proof. apply verify_malformed_tokens_rejected. reflexivity. Defined.

(** C10: an empty batch succeeds with [total_scans = 0], no verified
    students, no unrecognized tags and no attendance row; and when
    [classroom_id] is omitted, every attendance row the call inserts (and
    every insert it issues) uses classroom 1. *)
Theorem verify_empty_batch_and_default_classroom (fail : oracle) (now : nat) (cid : reqval)
  (tokens : list string) (d : db)
  (Hq : fail (tbl d) (OpSelectStudents []) = None) :
  verify_attendance fail now (mkVerifyReq (RArr []) cid) d
  = (mkResponse 200 (JSObj [("success", JSBool true); ("total_scans", JSNum 0);
                            ("verified_students", JSArr []); ("unrecognized", JSArr []);
                            ("message", JSStr "0 students verified, 0 unrecognized tags")]),
     d, [OpSelectStudents []])
  /\ (let '(_, d', tr) := verify_attendance fail now (mkVerifyReq (RArr tokens) RUndefined) d in
      (exists fresh, attendance (tbl d') = (attendance (tbl d) ++ fresh)%list
                     /\ Forall (fun a => a_classroom_id a = RNum 1) fresh)
      /\ Forall (fun o => match o with
                          | OpInsertAttendance _ c => c = RNum 1
                          | _ => True
                          end) tr).
Proof.
  split.
  - unfold verify_attendance. simpl. rewrite Hq, select_students_nil. reflexivity.
  - unfold verify_attendance. simpl.
    destruct (fail (tbl d) (OpSelectStudents tokens)).
    + split; [exists []; rewrite app_nil_r; auto | repeat constructor].
    + pose proof (insert_attendance_all_shape fail now (RNum 1)
                    (select_students (tbl d) tokens) d) as Hs.
      destruct (insert_attendance_all _ _ _ _ _) as [[d' tr] rej].
      destruct Hs as (_ & _ & _ & (fresh & Ha & Hf & _) & Htr).
      assert (Hops : Forall (fun o => match o with
                                      | OpInsertAttendance _ c => c = RNum 1
                                      | _ => True
                                      end) (OpSelectStudents tokens :: tr)).
      { constructor; [exact I|]. subst tr. apply Forall_forall.
        intros o Ho. apply in_map_iff in Ho as (r & <- & _). reflexivity. }
      destruct rej; (split; [exists fresh; auto | exact Hops]).
Qed.

Lemma verify_empty_batch_and_default_classroom_witness :
  verify_attendance no_fail 3 (mkVerifyReq (RArr []) RUndefined) alice_db
  = (mkResponse 200 (JSObj [("success", JSBool true); ("total_scans", JSNum 0);
                            ("verified_students", JSArr []); ("unrecognized", JSArr []);
                            ("message", JSStr "0 students verified, 0 unrecognized tags")]),
     alice_db, [OpSelectStudents []])
  /\ (let '(_, d', tr) := verify_attendance no_fail 3 (mkVerifyReq (RArr ["RFID1"]) RUndefined)
                                            alice_db in
      (exists fresh, attendance (tbl d') = (attendance (tbl alice_db) ++ fresh)%list
                     /\ Forall (fun a => a_classroom_id a = RNum 1) fresh)
      /\ Forall (fun o => match o with
                          | OpInsertAttendance _ c => c = RNum 1
                          | _ => True
                          end) tr).
Proof. apply verify_empty_batch_and_default_classroom. reflexivity. Defined.

(** C7: whenever verification succeeds, [unrecognized] is exactly the
    input tokens without a corresponding enrolled student, in input order
    with duplicates kept. *)
Theorem verify_unrecognized_exact (fail : oracle) (now : nat) (tokens : list string)
  (cid : reqval) (d : db) (r : response) (d' : db) (tr : list op)
  (Hrun : verify_attendance fail now (mkVerifyReq (RArr tokens) cid) d = (r, d', tr))
  (Hok : status r = 200%Z) :
  field "unrecognized" (body r) = Some (JSArr (map JSStr (spec_unmatched (tbl d) tokens))).
Proof.
  pose proof (verify_attendance_cases fail now (mkVerifyReq (RArr tokens) cid) d) as H.
  rewrite Hrun in H.
  destruct H as [(-> & _ & _) | [-> | (tks & Htk & _ & ->)]]; try discriminate.
  simpl in Htk. injection Htk as <-. simpl. do 3 f_equal.
  unfold spec_unmatched. apply filter_ext_in. intros x Hx.
  rewrite found_tag_enrolled by exact Hx. reflexivity.
Qed.

Lemma verify_unrecognized_exact_witness :
  field "unrecognized" (body (mkResponse 200 (JSObj
       [("success", JSBool true); ("total_scans", JSNum 2);
        ("verified_students",
          JSArr [JSObj [("name", JSStr "Alice"); ("section", JSStr "CS-A");
                        ("rfid_tag", JSStr "RFID1"); ("id_number", JSStr "S001");
                        ("status", JSStr "Present")]]);
        ("unrecognized", JSArr [JSStr "RFID9"]);
        ("message", JSStr "1 students verified, 1 unrecognized tags")])))
  = Some (JSArr (map JSStr (spec_unmatched (tbl alice_db) ["RFID1"; "RFID9"]))).
Proof.
  eapply (verify_unrecognized_exact no_fail 7 ["RFID1"; "RFID9"] RUndefined alice_db).
  - exact end_to_end.
  - reflexivity.
Defined.

(** C1, as stated, fails: a tag scanned twice in one batch is matched once
    and not reported unrecognized, so matched + unmatched (1 + 0) falls
    short of [total_scans] (2). *)
Lemma verify_duplicate_token_breaks_count :
  counts_add_up (body (fst (fst (verify_attendance no_fail 0
    (mkVerifyReq (RArr ["RFID1"; "RFID1"]) RUndefined) alice_db)))) = false.
Proof. vm_compute. reflexivity. Qed.

(** C1, amended: on success, [total_scans] is the number of input tokens
    and every input token is either the tag of a verified student or in
    [unrecognized], never both; the counts add up to [total_scans] when
    the batch has no repeated token, the matched students have distinct
    tags (as the UNIQUE constraint on [rfid_tag] ensures), and every
    matched student has at most one section link. *)
Theorem verify_partition (fail : oracle) (now : nat) (tokens : list string)
  (cid : reqval) (d : db) (r : response) (d' : db) (tr : list op)
  (Hrun : verify_attendance fail now (mkVerifyReq (RArr tokens) cid) d = (r, d', tr))
  (Hok : status r = 200%Z) :
  exists rows unm,
    field "verified_students" (body r) = Some (JSArr (map student_json rows))
    /\ field "unrecognized" (body r) = Some (JSArr (map JSStr unm))
    /\ field "total_scans" (body r) = Some (JSNum (Z.of_nat (length tokens)))
    /\ (forall x, In x tokens -> (In x (map row_rfid_tag rows) <-> ~ In x unm))
    /\ (NoDup tokens -> NoDup (map rfid_tag (matched_students (tbl d) tokens)) ->
        (forall p, In p (matched_students (tbl d) tokens) ->
           length (filter (fun l => Nat.eqb (fst l) (person_id p)) (student_sections (tbl d)))
           <= 1) ->
        length rows + length unm = length tokens).
Proof.
  pose proof (verify_attendance_cases fail now (mkVerifyReq (RArr tokens) cid) d) as H.
  rewrite Hrun in H.
  destruct H as [(-> & _ & _) | [-> | (tks & Htk & _ & ->)]]; try discriminate.
  simpl in Htk. injection Htk as <-.
  set (rows := select_students (tbl d) tokens).
  set (found := map row_rfid_tag rows).
  exists rows, (filter (fun x => negb (tag_in found x)) tokens).
  split; [reflexivity|]. split; [reflexivity|]. split; [reflexivity|]. split.
  - intros x Hx. fold found. rewrite filter_In, <- (tag_in_iff found x).
    destruct (tag_in found x); simpl; intuition congruence.
  - intros Hnd HndF Hle.
    set (F := map rfid_tag (matched_students (tbl d) tokens)).
    assert (Hfound : found = F) by (apply select_students_one_link; exact Hle).
    assert (Hrows : length rows = length F)
      by (rewrite <- Hfound; unfold found; symmetry; apply length_map).
    rewrite Hrows, Hfound.
    rewrite <- (filter_split_length (tag_in F) tokens). f_equal.
    apply Nat.le_antisymm; apply NoDup_incl_length.
    + exact HndF.
    + intros y Hy. apply filter_In. split; [|apply tag_in_iff; exact Hy].
      unfold F in Hy. apply in_map_iff in Hy as (p & <- & Hp).
      apply filter_In in Hp as [_ HP].
      apply andb_true_iff in HP as [_ HP]. apply tag_in_iff. exact HP.
    + apply NoDup_filter. exact Hnd.
    + intros y Hy. apply filter_In in Hy as [_ Hy]. apply tag_in_iff. exact Hy.
Qed.

Lemma verify_partition_witness :
  exists rows unm,
    field "verified_students" (body (fst (fst (verify_attendance no_fail 7
       (mkVerifyReq (RArr ["RFID1"; "RFID9"]) RUndefined) alice_db))))
      = Some (JSArr (map student_json rows))
    /\ field "unrecognized" (body (fst (fst (verify_attendance no_fail 7
       (mkVerifyReq (RArr ["RFID1"; "RFID9"]) RUndefined) alice_db))))
      = Some (JSArr (map JSStr unm))
    /\ field "total_scans" (body (fst (fst (verify_attendance no_fail 7
       (mkVerifyReq (RArr ["RFID1"; "RFID9"]) RUndefined) alice_db))))
      = Some (JSNum (Z.of_nat (length ["RFID1"; "RFID9"])))
    /\ (forall x, In x ["RFID1"; "RFID9"] -> (In x (map row_rfid_tag rows) <-> ~ In x unm))
    /\ (NoDup ["RFID1"; "RFID9"] ->
        NoDup (map rfid_tag (matched_students (tbl alice_db) ["RFID1"; "RFID9"])) ->
        (forall p, In p (matched_students (tbl alice_db) ["RFID1"; "RFID9"]) ->
           length (filter (fun l => Nat.eqb (fst l) (person_id p))
                          (student_sections (tbl alice_db))) <= 1) ->
        length rows + length unm = length ["RFID1"; "RFID9"]).
Proof.
  apply (verify_partition no_fail 7 ["RFID1"; "RFID9"] RUndefined alice_db _
           (snd (fst (verify_attendance no_fail 7
              (mkVerifyReq (RArr ["RFID1"; "RFID9"]) RUndefined) alice_db)))
           (snd (verify_attendance no_fail 7
              (mkVerifyReq (RArr ["RFID1"; "RFID9"]) RUndefined) alice_db))).
  - reflexivity.
  - reflexivity.
Defined.

(** C2 (defect): a student with two section links gets two attendance
    rows from a single scan of their tag, since one INSERT is issued per
    row of the LEFT JOIN rather than per student. *)
Theorem verify_two_links_two_events :
  let '(_, d', _) := verify_attendance no_fail 0 (mkVerifyReq (RArr ["T1"]) RUndefined)
                                       two_links_db in
  events_of (tbl d') 1 = 2.
Proof. vm_compute. reflexivity. Qed.

(** ** Enrollment claims *)

(** The handler is straight-line code: split on every storage answer and
    every test, innermost first. *)
Ltac destr_inner :=
  match goal with
  | |- context [match ?x with _ => _ end] =>
      lazymatch x with
      | context [match _ with _ => _ end] => fail
      | _ => destruct x eqn:?
      end
  end.

Ltac run_tx :=
  unfold add_student, add_student_try, insert_link, mbind, query, log, early_return, mret,
         insert_section, insert_person; simpl;
  repeat (destr_inner; simpl).

(** A failing [try] block never reaches a successful COMMIT. *)
Lemma add_student_try_thrown fail b st :
  match add_student_try fail b st with
  | (Thrown _, st') => committed st' = committed st
  | _ => True
  end.
Proof. destruct b as [n t s i]. run_tx; auto. Qed.

Lemma add_student_flags fail b d :
  match add_student fail b d with
  | (Some r, _, _) => flag_payload (body r) = true
  | (None, _, _) => True
  end.
Proof. destruct b as [n t s i]. run_tx; reflexivity. Qed.

Lemma select_by_tag_nonempty (t : tables) (x : string) :
  In x (map rfid_tag (persons t)) -> Nat.ltb 0 (length (select_by_tag t x)) = true.
Proof.
  intro H. apply Nat.ltb_lt. unfold select_by_tag. rewrite length_map.
  apply in_map_iff in H as (p & Hp & Hin).
  destruct (filter _ _) eqn:E; simpl; [|lia].
  assert (Hf : In p (filter (fun p => String.eqb (rfid_tag p) x) (persons t))).
  { apply filter_In. split; [exact Hin | apply String.eqb_eq; exact Hp]. }
  rewrite E in Hf. destruct Hf.
Qed.

(** C3: enrolling a well-formed request whose tag is already in [persons]
    leaves the tables as they were, whatever the store answers; when the
    connection, BEGIN and the tag lookup succeed, the answer is the
    duplicate-tag error and nothing else is issued. *)
Theorem add_student_duplicate_tag (fail : oracle) (d : db) (n t s i : string)
  (Hvalid : n <> "" /\ t <> "" /\ s <> "" /\ i <> "")
  (Hdup : In t (map rfid_tag (persons (tbl d)))) :
  let '(r, d', tr) := add_student fail (mkAddStudent (Some n) (Some t) (Some s) (Some i)) d in
  tbl d' = tbl d
  /\ (fail (tbl d) OpConnect = None -> fail (tbl d) OpBegin = None ->
      fail (tbl d) (OpSelectTag t) = None ->
      r = Some tag_exists /\ d' = d /\ tr = [OpConnect; OpBegin; OpSelectTag t; OpRelease]).
Proof.
  destruct Hvalid as (Hn & Ht & Hs & Hi).
  apply String.eqb_neq in Hn, Ht, Hs, Hi.
  unfold add_student.
  destruct (fail (tbl d) OpConnect) eqn:Hc; [split; [reflexivity | discriminate]|].
  unfold add_student_try, mbind, query, log, early_return; simpl.
  rewrite Hn, Ht, Hs, Hi. simpl.
  destruct (fail (tbl d) OpBegin) eqn:Hb; simpl.
  { destruct (fail (tbl d) OpRollback); simpl;
      split; [reflexivity | discriminate | reflexivity | discriminate]. }
  destruct (fail (tbl d) (OpSelectTag t)) eqn:Hst; simpl.
  { destruct (fail (tbl d) OpRollback); simpl;
      split; [reflexivity | discriminate | reflexivity | discriminate]. }
  rewrite select_by_tag_nonempty by exact Hdup. simpl.
  split; [reflexivity|]. intros _ _ _. destruct d; auto.
Qed.

Lemma add_student_duplicate_tag_witness :
  let '(r, d', tr) := add_student no_fail
                        (mkAddStudent (Some "Bob") (Some "RFID1") (Some "CS-B") (Some "S002"))
                        alice_db in
  tbl d' = tbl alice_db
  /\ (no_fail (tbl alice_db) OpConnect = None -> no_fail (tbl alice_db) OpBegin = None ->
      no_fail (tbl alice_db) (OpSelectTag "RFID1") = None ->
      r = Some tag_exists /\ d' = alice_db
      /\ tr = [OpConnect; OpBegin; OpSelectTag "RFID1"; OpRelease]).
Proof.
  apply (add_student_duplicate_tag no_fail alice_db "Bob" "RFID1" "CS-B" "S002").
  - repeat split; discriminate.
  - simpl. left. reflexivity.
Defined.

(** C4, as stated, fails: a uniqueness violation raised at insert time
    (here by a concurrent enrollment with the same tag, or with the same
    id number) is reported with one combined message, which is neither the
    duplicate-tag nor the duplicate-id error and does not say which field
    collided. *)
Lemma add_student_race_reports_combined_error :
  fst (fst (add_student (concurrent_enrollment carol_same_tag) alice_body empty_db))
    = Some duplicate_response
  /\ fst (fst (add_student (concurrent_enrollment carol_same_id) alice_body empty_db))
    = Some duplicate_response
  /\ duplicate_response <> tag_exists /\ duplicate_response <> id_exists.
Proof.
  split; [reflexivity|]. split; [reflexivity|].
  split; intro H; injection H; intro Hm; discriminate Hm.
Qed.

(** C4, amended: whenever a storage call of the enrollment transaction
    raises a uniqueness violation (SQLSTATE 23505) and the ROLLBACK goes
    through, the answer is the 400 error "Duplicate RFID tag or ID number"
    and the tables are rolled back. *)
Theorem add_student_unique_violation (fail : oracle) (b : add_student_body) (d : db)
  (st : txst)
  (Hconn : fail (tbl d) OpConnect = None)
  (Hthrow : add_student_try fail b (mkTx (tbl d) (tbl d) (sq d) [OpConnect])
            = (Thrown "23505", st))
  (Hrb : fail (cur st) OpRollback = None) :
  let '(r, d', _) := add_student fail b d in r = Some duplicate_response /\ tbl d' = tbl d.
Proof.
  pose proof (add_student_try_thrown fail b (mkTx (tbl d) (tbl d) (sq d) [OpConnect])) as Hc.
  rewrite Hthrow in Hc.
  unfold add_student. rewrite Hconn. cbv zeta. rewrite Hthrow, Hrb.
  split; [reflexivity | exact Hc].
Qed.

Lemma add_student_unique_violation_witness :
  let '(r, d', _) := add_student (concurrent_enrollment carol_same_tag) alice_body empty_db in
  r = Some duplicate_response /\ tbl d' = tbl empty_db.
Proof.
  apply (add_student_unique_violation (concurrent_enrollment carol_same_tag) alice_body empty_db
           (snd (add_student_try (concurrent_enrollment carol_same_tag) alice_body
                   (mkTx (tbl empty_db) (tbl empty_db) (sq empty_db) [OpConnect])))).
  - reflexivity.
  - reflexivity.
  - reflexivity.
Defined.

(** C5, failing input: a request missing [name] still acquires a
    connection and opens a transaction (BEGIN), and the client is released
    with the transaction still open. *)
Lemma add_student_missing_name_opens_transaction :
  snd (add_student no_fail (mkAddStudent None (Some "RFID1") (Some "CS-A") (Some "S001"))
                   empty_db)
  = [OpConnect; OpBegin; OpRelease].
Proof. reflexivity. Qed.

(** C5: the handler touches storage before it validates.  When a field is
    missing or empty, no lookup and no insert is issued and the store is
    left as it was, but a connection is taken and BEGIN is sent; when the
    connection and BEGIN succeed, the answer is the 400 missing-fields
    error and the trace is exactly connect, BEGIN, release: the client goes
    back to the pool inside an open transaction, with neither COMMIT nor
    ROLLBACK. *)
Theorem add_student_missing_field (fail : oracle) (b : add_student_body) (d : db)
  (Hmissing : missing (in_name b) \/ missing (in_rfid_tag b) \/ missing (in_section b)
              \/ missing (in_id_number b)) :
  let '(r, d', tr) := add_student fail b d in
  d' = d
  /\ incl tr [OpConnect; OpBegin; OpRollback; OpRelease]
  /\ (fail (tbl d) OpConnect = None -> fail (tbl d) OpBegin = None ->
      r = Some missing_fields /\ tr = [OpConnect; OpBegin; OpRelease]).
Proof.
  destruct b as [n t s i]. unfold missing in Hmissing. simpl in Hmissing.
  destruct Hmissing as [[-> | ->] | [[-> | ->] | [[-> | ->] | [-> | ->]]]];
    run_tx;
    try (match goal with
         | H : _ = false |- _ => rewrite ?orb_true_r in H; simpl in H; discriminate H
         end);
    (split; [destruct d; reflexivity|]);
    (split; [intros o Ho; simpl in Ho; simpl; tauto|]);
    intros; try congruence; split; reflexivity.
Qed.

Lemma add_student_missing_field_witness :
  let '(r, d', tr) := add_student no_fail
                        (mkAddStudent None (Some "RFID1") (Some "CS-A") (Some "S001")) empty_db in
  d' = empty_db
  /\ incl tr [OpConnect; OpBegin; OpRollback; OpRelease]
  /\ (no_fail (tbl empty_db) OpConnect = None -> no_fail (tbl empty_db) OpBegin = None ->
      r = Some missing_fields /\ tr = [OpConnect; OpBegin; OpRelease]).
Proof.
  apply (add_student_missing_field no_fail
           (mkAddStudent None (Some "RFID1") (Some "CS-A") (Some "S001")) empty_db).
  left. left. reflexivity.
Defined.

(** C8: a successful enrollment under a section name that no row has
    creates exactly one section row, with that name, and links the new
    person to it; under a name that a row already has (exact, case
    sensitive match), it creates no section row and links the new person
    to the existing section. *)
Theorem add_student_section_get_or_create (fail : oracle) (d : db) (n t s i : string)
  (r : response) (d' : db) (tr : list op)
  (Hrun : add_student fail (mkAddStudent (Some n) (Some t) (Some s) (Some i)) d
          = (Some r, d', tr))
  (Hok : status r = 200%Z) :
  (select_section (tbl d) s = [] ->
     exists sid, sections (tbl d') = (sections (tbl d) ++ [mkSection sid s])%list
       /\ exists pid, student_sections (tbl d')
                      = (student_sections (tbl d) ++ [(pid, sid)])%list)
  /\ (forall sid rest, select_section (tbl d) s = sid :: rest ->
     sections (tbl d') = sections (tbl d)
       /\ exists pid, student_sections (tbl d')
                      = (student_sections (tbl d) ++ [(pid, sid)])%list).
Proof.
  revert Hrun Hok. run_tx; intros Hrun Hok; inversion Hrun; subst; try discriminate; simpl in *.
  all: split; intros; try congruence.
  - eexists. split; [reflexivity|]. eexists. reflexivity.
  - split; [reflexivity|].
    match goal with |- exists pid, (_ ++ [(?p, _)])%list = _ => exists p end.
    congruence.
Qed.

Lemma add_student_section_get_or_create_witness :
  (select_section (tbl alice_db) "CS-A" = [] ->
     exists sid, sections (tbl (snd (fst (add_student no_fail
                   (mkAddStudent (Some "Bob") (Some "RFID2") (Some "CS-A") (Some "S002"))
                   alice_db))))
                 = (sections (tbl alice_db) ++ [mkSection sid "CS-A"])%list
       /\ exists pid, student_sections (tbl (snd (fst (add_student no_fail
                   (mkAddStudent (Some "Bob") (Some "RFID2") (Some "CS-A") (Some "S002"))
                   alice_db))))
                      = (student_sections (tbl alice_db) ++ [(pid, sid)])%list)
  /\ (forall sid rest, select_section (tbl alice_db) "CS-A" = sid :: rest ->
     sections (tbl (snd (fst (add_student no_fail
                   (mkAddStudent (Some "Bob") (Some "RFID2") (Some "CS-A") (Some "S002"))
                   alice_db))))
       = sections (tbl alice_db)
       /\ exists pid, student_sections (tbl (snd (fst (add_student no_fail
                   (mkAddStudent (Some "Bob") (Some "RFID2") (Some "CS-A") (Some "S002"))
                   alice_db))))
                      = (student_sections (tbl alice_db) ++ [(pid, sid)])%list).
Proof.
  apply (add_student_section_get_or_create no_fail alice_db "Bob" "RFID2" "CS-A" "S002"
           (added_response 2 "Bob" "RFID2" "CS-A" "S002")
           (snd (fst (add_student no_fail
                   (mkAddStudent (Some "Bob") (Some "RFID2") (Some "CS-A") (Some "S002"))
                   alice_db)))
           (snd (add_student no_fail
                   (mkAddStudent (Some "Bob") (Some "RFID2") (Some "CS-A") (Some "S002"))
                   alice_db))).
  - vm_compute. reflexivity.
  - reflexivity.
Defined.

(** C9, as stated, fails: the health check answers without a [success]
    flag. *)
Lemma health_has_no_success_flag :
  dispatch GetHealth = Some health_response
  /\ field "success" (body health_response) = None.
Proof. split; reflexivity. Qed.

(** C9, amended: every payload the app sends, except the health check's,
    carries a boolean [success] flag, and an [error] string when the flag
    is false. *)
Theorem payloads_carry_success_flag (rq : request) (r : response)
  (Hnh : rq <> GetHealth) (Hr : dispatch rq = Some r) :
  flag_payload (body r) = true.
Proof.
  destruct rq as [ |res|fail now req d|fail b d|res|res|ok| | ]; simpl in Hr.
  - exfalso. apply Hnh. reflexivity.
  - destruct res; injection Hr as <-; reflexivity.
  - pose proof (verify_attendance_cases fail now req d) as Hc.
    destruct (verify_attendance fail now req d) as [[r' d'] tr].
    injection Hr as <-.
    destruct Hc as [(-> & _) | [-> | (tokens & _ & _ & ->)]]; reflexivity.
  - pose proof (add_student_flags fail b d) as Hf.
    destruct (add_student fail b d) as [[r' d'] tr].
    subst r'. exact Hf.
  - destruct res; injection Hr as <-; reflexivity.
  - destruct res; injection Hr as <-; reflexivity.
  - destruct ok; injection Hr as <-; reflexivity.
  - injection Hr as <-. reflexivity.
  - injection Hr as <-. reflexivity.
Qed.

Lemma payloads_carry_success_flag_witness :
  flag_payload (body not_found) = true.
Proof.
  apply (payloads_carry_success_flag UnknownRoute not_found).
  - discriminate.
  - reflexivity.
Defined.

(** ** Properties of enrollment *)

(** X1: whatever the store answers, an enrollment that does not end in a
    200 answer (an error answer, or no answer at all) leaves the committed
    tables as they were. *)
Lemma add_student_non_success_unchanged (fail : oracle) (b : add_student_body) (d : db) :
  let '(r, d', _) := add_student fail b d in
  (forall r0, r = Some r0 -> status r0 <> 200%Z) -> tbl d' = tbl d.
Proof.
  destruct b as [n t s i]. run_tx; intro H; try reflexivity;
    exfalso; eapply H; reflexivity.
Qed.

(** X2: enrolling a student never touches the attendance table. *)
Lemma add_student_keeps_attendance (fail : oracle) (b : add_student_body) (d : db) :
  attendance (tbl (snd (fst (add_student fail b d)))) = attendance (tbl d).
Proof. destruct b as [n t s i]. run_tx; reflexivity. Qed.

(** X3: a storage failure inside the transaction with an SQLSTATE other
    than 23505 is answered by the 500 error "Failed to add student" once
    the ROLLBACK goes through, and the tables are rolled back. *)
Lemma add_student_storage_error (fail : oracle) (b : add_student_body) (d : db)
  (st : txst) (c : string)
  (Hc : c <> "23505")
  (Hconn : fail (tbl d) OpConnect = None)
  (Hthrow : add_student_try fail b (mkTx (tbl d) (tbl d) (sq d) [OpConnect]) = (Thrown c, st))
  (Hrb : fail (cur st) OpRollback = None) :
  let '(r, d', _) := add_student fail b d in r = Some add_failed /\ tbl d' = tbl d.
Proof.
  pose proof (add_student_try_thrown fail b (mkTx (tbl d) (tbl d) (sq d) [OpConnect])) as Hk.
  rewrite Hthrow in Hk.
  unfold add_student. rewrite Hconn. cbv zeta. rewrite Hthrow, Hrb.
  apply String.eqb_neq in Hc. rewrite Hc.
  split; [reflexivity | exact Hk].
Qed.

(** Empty lookups. *)
Lemma select_by_tag_nil (t : tables) (x : string) :
  select_by_tag t x = [] <-> ~ In x (map rfid_tag (persons t)).
Proof.
  unfold select_by_tag. split.
  - intros H Hin. apply in_map_iff in Hin as (p & Hp & Hin).
    assert (Hf : In p (filter (fun p => String.eqb (rfid_tag p) x) (persons t))).
    { apply filter_In. split; [exact Hin | apply String.eqb_eq; exact Hp]. }
    destruct (filter _ _); [destruct Hf | discriminate].
  - intro H. destruct (filter _ _) as [|p ps] eqn:E; [reflexivity|].
    exfalso. apply H. assert (Hp : In p (p :: ps)) by (left; reflexivity).
    rewrite <- E in Hp. apply filter_In in Hp as [Hin Heq].
    apply String.eqb_eq in Heq. rewrite <- Heq. apply in_map. exact Hin.
Qed.

Lemma select_by_id_number_nil (t : tables) (x : string) :
  select_by_id_number t x = [] <-> ~ In x (id_numbers t).
Proof.
  unfold select_by_id_number, id_numbers. split.
  - intros H Hin. apply in_flat_map in Hin as (p & Hin & Hx).
    destruct (id_number p) as [j|] eqn:Ej; [|destruct Hx].
    destruct Hx as [<-|[]].
    assert (Hf : In p (filter (fun p => match id_number p with
                                        | Some i => String.eqb i j | None => false end)
                              (persons t))).
    { apply filter_In. rewrite Ej. split; [exact Hin | apply String.eqb_refl]. }
    destruct (filter _ _); [destruct Hf | discriminate].
  - intro H. destruct (filter _ _) as [|p ps] eqn:E; [reflexivity|].
    exfalso. apply H. assert (Hp : In p (p :: ps)) by (left; reflexivity).
    rewrite <- E in Hp. apply filter_In in Hp as [Hin Heq].
    apply in_flat_map. exists p. split; [exact Hin|].
    destruct (id_number p); [|discriminate]. apply String.eqb_eq in Heq. subst. left; reflexivity.
Qed.

(** X4: a 200 answer to an enrollment carries the person id drawn from the
    sequence and the submitted fields; the new student is appended to
    [persons], and its tag and id number were not in use before. *)
Lemma add_student_success (fail : oracle) (d : db) (n t s i : string)
  (r : response) (d' : db) (tr : list op)
  (Hrun : add_student fail (mkAddStudent (Some n) (Some t) (Some s) (Some i)) d
          = (Some r, d', tr))
  (Hok : status r = 200%Z) :
  r = added_response (person_seq (sq d)) n t s i
  /\ persons (tbl d') = (persons (tbl d) ++ [mkPerson (person_seq (sq d)) n t "student" (Some i)])%list
  /\ ~ In t (map rfid_tag (persons (tbl d)))
  /\ ~ In i (id_numbers (tbl d)).
Proof.
  revert Hrun Hok. run_tx; intros Hrun Hok; inversion Hrun; subst; try discriminate; simpl in *.
  all: split; [reflexivity|]; split; [reflexivity|].
  all: split; [apply select_by_tag_nil; destruct (select_by_tag _ _); [reflexivity|discriminate]
              | apply select_by_id_number_nil; destruct (select_by_id_number _ _); [reflexivity|discriminate]].
Qed.

(** X5: an enrollment keeps the tags, and the id numbers, of [persons]
    pairwise distinct. *)
Lemma add_student_200_fields (fail : oracle) (b : add_student_body) (d : db)
  (r : response) (d' : db) (tr : list op) :
  add_student fail b d = (Some r, d', tr) -> status r = 200%Z ->
  exists n t s i, b = mkAddStudent (Some n) (Some t) (Some s) (Some i).
Proof.
  destruct b as [n t s i]. run_tx; intros H Hok; inversion H; subst; try discriminate;
    do 4 eexists; reflexivity.
Qed.

Lemma add_student_keeps_unique_tags (fail : oracle) (b : add_student_body) (d : db)
  (Huniq : NoDup (map rfid_tag (persons (tbl d))))
  (Hids : NoDup (id_numbers (tbl d))) :
  let '(_, d', _) := add_student fail b d in
  NoDup (map rfid_tag (persons (tbl d'))) /\ NoDup (id_numbers (tbl d')).
Proof.
  pose proof (add_student_non_success_unchanged fail b d) as Hun.
  destruct (add_student fail b d) as [[r d'] tr] eqn:Hrun.
  destruct r as [r|];
    [destruct (Z.eq_dec (status r) 200) as [Hok|Hnok]|].
  - destruct (add_student_200_fields fail b d r d' tr Hrun Hok) as (n & t & s & i & ->).
    destruct (add_student_success fail d n t s i r d' tr Hrun Hok) as (_ & Hp & Ht & Hi).
    unfold id_numbers in *. rewrite Hp, map_app, flat_map_app. simpl.
    split; apply NoDup_app; auto; try (constructor; [intros []|constructor]);
      intros a Ha [<-|[]]; contradiction.
  - unfold id_numbers in *.
    rewrite Hun by (intros r0 Hr0; injection Hr0 as <-; exact Hnok). auto.
  - unfold id_numbers in *. rewrite Hun by discriminate. auto.
Qed.

(** X6: with a store that rejects nothing, four non-empty fields whose tag
    and id number are not in use are enrolled: the answer is the 200
    payload with the next person id. *)
Lemma add_student_fresh_succeeds (d : db) (n t s i : string)
  (Hvalid : n <> "" /\ t <> "" /\ s <> "" /\ i <> "")
  (Ht : ~ In t (map rfid_tag (persons (tbl d))))
  (Hi : ~ In i (id_numbers (tbl d))) :
  fst (fst (add_student no_fail (mkAddStudent (Some n) (Some t) (Some s) (Some i)) d))
  = Some (added_response (person_seq (sq d)) n t s i).
Proof.
  destruct Hvalid as (Hn & Ht' & Hs & Hi').
  apply String.eqb_neq in Hn, Ht', Hs, Hi'.
  apply select_by_tag_nil in Ht. apply select_by_id_number_nil in Hi.
  unfold add_student, add_student_try, insert_link, mbind, query, log, early_return, mret,
         insert_section, insert_person, no_fail; simpl.
  rewrite Hn, Ht', Hs, Hi'. simpl. rewrite Ht. simpl. destruct (select_by_id_number (tbl d) i) eqn:E; [|discriminate]. simpl.
  destruct (select_section (tbl d) s); reflexivity.
Qed.

(** ** Further properties of the handlers *)

(** The attendance inserts, when none is rejected. *)
Lemma insert_attendance_all_ok fail now cid rows d :
  let '(d2, _, rej) := insert_attendance_all fail now cid rows d in
  rej = false ->
  attendance (tbl d2) = (attendance (tbl d) ++ attendance_rows_from (attendance_seq (sq d)) cid now rows)%list
  /\ attendance_seq (sq d2) = attendance_seq (sq d) + length rows.
Proof.
  revert d. induction rows as [|r rest IH]; intro d; simpl.
  - intros _. rewrite app_nil_r. split; [reflexivity|lia].
  - destruct (fail (tbl d) (OpInsertAttendance (row_person_id r) cid)) eqn:Hf.
    + destruct (insert_attendance_all _ _ _ _ _) as [[d2 tr] rej]. discriminate.
    + specialize (IH (mkDb (add_attendance (tbl d) (mkAttendance (attendance_seq (sq d)) (row_person_id r) cid now))
                            (mkSeqs (person_seq (sq d)) (section_seq (sq d)) (S (attendance_seq (sq d)))))).
      destruct (insert_attendance_all _ _ _ _ _) as [[d2 tr] rej].
      intro Hr. destruct (IH Hr) as [Ha Hs]. simpl in Ha, Hs.
      rewrite Ha, <- app_assoc. split; [reflexivity|lia].
Qed.

(** X8: a verification request never changes [persons], [sections] or
    [student_sections]; it only appends to [attendance]. *)
Lemma verify_only_appends_attendance (fail : oracle) (now : nat) (req : verify_req) (d : db) :
  let '(_, d', _) := verify_attendance fail now req d in
  persons (tbl d') = persons (tbl d) /\ sections (tbl d') = sections (tbl d)
  /\ student_sections (tbl d') = student_sections (tbl d)
  /\ exists fresh, attendance (tbl d') = (attendance (tbl d) ++ fresh)%list.
Proof.
  unfold verify_attendance.
  destruct (rfid_tags_in req) as [| | | | |tokens|]; simpl; rewrite ?orb_true_r;
    try (refine (conj eq_refl (conj eq_refl (conj eq_refl (ex_intro _ [] _))));
         rewrite app_nil_r; reflexivity).
  destruct (fail (tbl d) (OpSelectStudents tokens)).
  - refine (conj eq_refl (conj eq_refl (conj eq_refl (ex_intro _ [] _)))).
    rewrite app_nil_r; reflexivity.
  - pose proof (insert_attendance_all_shape fail now
                  (match classroom_id_in req with RUndefined => RNum 1 | v => v end)
                  (select_students (tbl d) tokens) d) as H.
    destruct (insert_attendance_all _ _ _ _ _) as [[d' tr] rej].
    destruct H as (Hp & Hs & Hl & (fresh & Ha & _) & _).
    destruct rej; (split; [exact Hp|split; [exact Hs|split; [exact Hl|exists fresh; exact Ha]]]).
Qed.

(** The attendance rows of a 200 verification, in the order the model
    issues the inserts. *)
Lemma verify_success_records (fail : oracle) (now : nat) (tokens : list string) (cid : reqval)
  (d : db) (r : response) (d' : db) (tr : list op)
  (Hrun : verify_attendance fail now (mkVerifyReq (RArr tokens) cid) d = (r, d', tr))
  (Hok : status r = 200%Z) :
  attendance (tbl d') =
    (attendance (tbl d)
     ++ attendance_rows_from (attendance_seq (sq d))
          (match cid with RUndefined => RNum 1 | v => v end) now
          (select_students (tbl d) tokens))%list
  /\ attendance_seq (sq d') = attendance_seq (sq d) + length (select_students (tbl d) tokens).
Proof.
  revert Hrun. unfold verify_attendance. simpl.
  destruct (fail (tbl d) (OpSelectStudents tokens)).
  - intro H. inversion H; subst. discriminate.
  - destruct cid;
    match goal with
    | |- context [insert_attendance_all fail now ?c ?rows d] =>
        pose proof (insert_attendance_all_ok fail now c rows d) as H
    end;
    destruct (insert_attendance_all _ _ _ _ _) as [[d2 tr2] rej];
    destruct rej; intro Hr; inversion Hr; subst; try discriminate; apply H; reflexivity.
Qed.

Lemma attendance_rows_from_fields (aid : nat) (cid : reqval) (now : nat)
  (rows : list verify_row) :
  map a_person_id (attendance_rows_from aid cid now rows) = map row_person_id rows
  /\ Forall (fun a => a_classroom_id a = cid) (attendance_rows_from aid cid now rows).
Proof.
  revert aid. induction rows as [|r rest IH]; intro aid; simpl; [split; constructor|].
  destruct (IH (S aid)) as [H1 H2]. split; [f_equal; exact H1|constructor; [reflexivity|exact H2]].
Qed.

(** X9: a 200 answer to a verification adds one attendance row per row of
    the matching query, whatever order the concurrent inserts take: the
    person ids of the new rows are those of the matched rows, as a
    multiset, and every new row carries the classroom (1 when absent). *)
Theorem verify_success_one_row_per_match (fail : oracle) (now : nat)
  (tokens : list string) (cid : reqval) (d : db) (r : response) (d' : db) (tr : list op)
  (Hrun : verify_attendance fail now (mkVerifyReq (RArr tokens) cid) d = (r, d', tr))
  (Hok : status r = 200%Z) :
  exists fresh, attendance (tbl d') = (attendance (tbl d) ++ fresh)%list
    /\ Permutation (map a_person_id fresh) (map row_person_id (select_students (tbl d) tokens))
    /\ Forall (fun a => a_classroom_id a = match cid with RUndefined => RNum 1 | v => v end)
              fresh.
Proof.
  destruct (verify_success_records fail now tokens cid d r d' tr Hrun Hok) as [Ha _].
  eexists. split; [exact Ha|].
  destruct (attendance_rows_from_fields (attendance_seq (sq d))
              (match cid with RUndefined => RNum 1 | v => v end) now
              (select_students (tbl d) tokens)) as [H1 H2].
  rewrite H1. split; [reflexivity|exact H2].
Qed.

Lemma filter_nil_of_all_false {A} (f : A -> bool) (l : list A) :
  (forall x, In x l -> f x = false) -> filter f l = [].
Proof.
  induction l as [|a l IH]; intro H; simpl; [reflexivity|].
  rewrite (H a (or_introl eq_refl)). apply IH. intros x Hx. apply H. right. exact Hx.
Qed.



Lemma select_students_in (t : tables) (tokens : list string) (p : person) (r : verify_row) :
  In p (persons t) -> role p = "student" -> In (rfid_tag p) tokens -> In r (person_rows t p) ->
  In r (select_students t tokens).
Proof.
  intros Hp Hrole Htok Hr. unfold select_students. apply in_flat_map. exists p.
  split; [exact Hp|]. rewrite Hrole, (proj2 (tag_in_iff _ _) Htok). exact Hr.
Qed.




(** X10: a scanned student with no section link is reported, with its
    name and tag, under the section "Unknown". *)
Lemma verify_unlinked_student_unknown_section (fail : oracle) (now : nat) (tokens : list string)
  (cid : reqval) (d : db) (r : response) (d' : db) (tr : list op) (p : person)
  (Hrun : verify_attendance fail now (mkVerifyReq (RArr tokens) cid) d = (r, d', tr))
  (Hok : status r = 200%Z)
  (Hp : In p (persons (tbl d))) (Hrole : role p = "student") (Htok : In (rfid_tag p) tokens)
  (Hnolink : forall l, In l (student_sections (tbl d)) -> fst l <> person_id p) :
  exists js j, field "verified_students" (body r) = Some (JSArr js) /\ In j js
    /\ field "name" j = Some (JSStr (name p)) /\ field "rfid_tag" j = Some (JSStr (rfid_tag p))
    /\ field "section" j = Some (JSStr "Unknown").
Proof.
  pose proof (verify_attendance_cases fail now (mkVerifyReq (RArr tokens) cid) d) as Hc.
  rewrite Hrun in Hc.
  destruct Hc as [(-> & _)|[->|(tokens' & Htk & Hrest)]]; [discriminate|discriminate|].
  simpl in Htk. injection Htk as <-. destruct Hrest as (_ & ->).
  set (row := mkRow (person_id p) (name p) (rfid_tag p) (id_number p) None).
  assert (Hrow : In row (select_students (tbl d) tokens)).
  { apply (select_students_in _ _ p); auto. unfold person_rows.
    rewrite filter_nil_of_all_false; [left; reflexivity|].
    intros l Hl. apply Nat.eqb_neq. apply Hnolink. exact Hl. }
  exists (map student_json (select_students (tbl d) tokens)), (student_json row).
  split; [reflexivity|]. split; [apply in_map; exact Hrow|]. repeat split.
Qed.


(** [ORDER BY] permutes the rows, and sorts them under any total
    collation. *)
Section OrderByFacts.
Context {A : Type} (le : collation) (key : A -> string).

Lemma insert_by_perm (x : A) (l : list A) : Permutation (x :: l) (insert_by le key x l).
Proof.
  induction l as [|y l IH]; simpl; [reflexivity|].
  destruct (le (key x) (key y)); [reflexivity|].
  etransitivity; [apply perm_swap|]. constructor. exact IH.
Qed.

Lemma order_by_perm (l : list A) : Permutation l (order_by le key l).
Proof.
  induction l as [|x l IH]; simpl; [reflexivity|].
  etransitivity; [constructor; exact IH|]. apply insert_by_perm.
Qed.

Lemma insert_by_sorted (Htotal : forall a b, le a b = true \/ le b a = true)
  (x : A) (l : list A) :
  Sorted (fun a b => le (key a) (key b) = true) l ->
  Sorted (fun a b => le (key a) (key b) = true) (insert_by le key x l).
Proof.
  induction 1 as [|y l Hs IH Hhd]; simpl; [repeat constructor|].
  destruct (le (key x) (key y)) eqn:E.
  - constructor; [constructor; assumption|constructor; exact E].
  - constructor; [exact IH|].
    assert (Hyx : le (key y) (key x) = true)
      by (destruct (Htotal (key x) (key y)) as [H|H];
          [rewrite H in E; discriminate|exact H]).
    destruct l as [|z l']; simpl; [constructor; exact Hyx|].
    inversion Hhd; subst.
    destruct (le (key x) (key z)); constructor; assumption.
Qed.

Lemma order_by_sorted (Htotal : forall a b, le a b = true \/ le b a = true) (l : list A) :
  Sorted (fun a b => le (key a) (key b) = true) (order_by le key l).
Proof.
  induction l as [|x l IH]; simpl; [constructor|]. apply insert_by_sorted; assumption.
Qed.
End OrderByFacts.

(** X12: under any total collation, GET /api/sections lists every section
    once, ordered by name. *)
Theorem get_sections_sorted_permutation (le : collation)
  (Htotal : forall a b, le a b = true \/ le b a = true) (t : tables) :
  exists rows, get_sections_run le true t
               = mkResponse 200 (JSObj [("success", JSBool true);
                                        ("sections", JSArr (map section_json rows))])
    /\ Permutation (sections t) rows
    /\ Sorted (fun a b => le (section_name a) (section_name b) = true) rows.
Proof.
  exists (sections_rows le t). split; [reflexivity|]. split.
  - apply order_by_perm.
  - apply order_by_sorted. exact Htotal.
Qed.

(** X13: GET /api/students lists exactly the join rows of the students,
    restricted to the requested section when one is given. *)
Lemma students_rows_in (le : collation) (t : tables) (q : option string) (r : verify_row) :
  In r (students_rows le t q) <->
  (exists p, In p (persons t) /\ role p = "student" /\ In r (person_rows t p))
  /\ (present q = true -> row_section_name r = q).
Proof.
  unfold students_rows. split.
  - intro H. apply (Permutation_in _ (Permutation_sym (order_by_perm le row_name _))) in H.
    destruct (present q) eqn:Hq.
    + apply filter_In in H as [H Hf]. apply in_flat_map in H as (p & Hp & Hr).
      destruct (String.eqb (role p) "student") eqn:Er; [|destruct Hr].
      apply String.eqb_eq in Er. split; [exists p; auto|].
      intros _. destruct (row_section_name r) as [x|], q as [y|]; try discriminate.
      apply String.eqb_eq in Hf. subst. reflexivity.
    + apply in_flat_map in H as (p & Hp & Hr).
      destruct (String.eqb (role p) "student") eqn:Er; [|destruct Hr].
      apply String.eqb_eq in Er. split; [exists p; auto|]. discriminate.
  - intros [(p & Hp & Hrole & Hr) Hsec].
    apply (Permutation_in _ (order_by_perm le row_name _)).
    assert (Hin : In r (flat_map (fun p => if String.eqb (role p) "student" then person_rows t p else [])
                                 (persons t)))
      by (apply in_flat_map; exists p; rewrite Hrole; auto).
    destruct (present q) eqn:Hq; [|exact Hin].
    apply filter_In. split; [exact Hin|]. rewrite (Hsec eq_refl).
    destruct q as [y|]; [apply String.eqb_refl|discriminate].
Qed.

(** X14: under any total collation, GET /api/students lists its rows
    ordered by name. *)
Theorem get_students_sorted_by_name (le : collation)
  (Htotal : forall a b, le a b = true \/ le b a = true) (t : tables) (q : option string) :
  Sorted (fun a b => le (row_name a) (row_name b) = true) (students_rows le t q).
Proof. apply order_by_sorted. exact Htotal. Qed.

(** X15: filtering the student list by a section name no section has
    gives an empty list with success, not an error. *)
Theorem get_students_unknown_section (le : collation) (t : tables) (q : string)
  (Hq : q <> "") (Hnone : ~ In q (map section_name (sections t))) :
  get_students_run le true t (Some q)
  = mkResponse 200 (JSObj [("success", JSBool true); ("students", JSArr [])]).
Proof.
  unfold get_students_run.
  destruct (students_rows le t (Some q)) as [|r rs] eqn:E; [reflexivity|].
  exfalso. assert (Hr : In r (students_rows le t (Some q))) by (rewrite E; left; reflexivity).
  apply students_rows_in in Hr as [(p & _ & _ & Hr) Hsec].
  assert (Hpq : present (Some q) = true)
    by (simpl; apply String.eqb_neq in Hq; rewrite Hq; reflexivity).
  specialize (Hsec Hpq). unfold person_rows in Hr.
  destruct (filter _ _) as [|l ls].
  - destruct Hr as [<-|[]]. discriminate.
  - apply in_map_iff in Hr as (l' & <- & _). simpl in Hsec.
    unfold section_name_of in Hsec.
    destruct (find _ (sections t)) as [sec|] eqn:F; [|discriminate].
    injection Hsec as Hsn. apply find_some in F as [Fin _].
    apply Hnone. rewrite <- Hsn. apply in_map. exact Fin.
Qed.

(** X16: GET /api/attendance appends one clause per given filter, in the
    order date, section, classroom, numbered $1, $2, ... in the order of
    the parameter list, then the ordering by time. *)
Theorem build_attendance_query_numbered (f : attendance_filters) :
  build_attendance_query f
  = ((attendance_select ++ numbered_clauses 1 (active_filters f)
      ++ " ORDER BY a.timestamp DESC")%string,
     map snd (active_filters f)).
Proof.
  destruct f as [[a|] [b|] [c|]];
    unfold build_attendance_query, active_filters, add_filter; simpl;
    repeat match goal with
           | |- context [String.eqb ?x ""] => destruct (String.eqb x "")
           end; simpl; reflexivity.
Qed.

(** X17: running the bootstrap twice is the same as running it once. *)
Theorem init_db_idempotent (d : db) (c : classrooms_table) :
  let '(_, d1, c1) := init_db_run true d c in init_db_run true d1 c1 = (init_db true, d1, c1).
Proof.
  unfold init_db_run. simpl.
  destruct (existsb (fun r => String.eqb (snd r) "Default Room") (classrooms c)) eqn:E.
  - destruct (sections (tbl d)) eqn:Es; simpl; rewrite ?Es, E; reflexivity.
  - assert (E' : existsb (fun r => String.eqb (snd r) "Default Room")
                   (classrooms c ++ [(classroom_seq c, "Default Room")]) = true)
      by (rewrite existsb_app; simpl; rewrite orb_true_r; reflexivity).
    destruct (sections (tbl d)) eqn:Es; simpl; rewrite ?Es, E'; reflexivity.
Qed.


(** X7: once the connection is obtained, the client is released last
    ([finally]), on every path. *)
Theorem add_student_releases (fail : oracle) (b : add_student_body) (d : db)
  (Hconn : fail (tbl d) OpConnect = None) :
  hd_error (snd (add_student fail b d)) = Some OpConnect
  /\ last (snd (add_student fail b d)) OpConnect = OpRelease.
Proof.
  destruct b as [n t s i]. revert Hconn. run_tx; intro Hc; try discriminate; split; reflexivity.
Qed.


(** ** Instances of the properties *)
Lemma add_student_non_success_unchanged_witness :
  let '(r, d', _) := add_student no_fail alice_body alice_db in
  (forall r0, r = Some r0 -> status r0 <> 200%Z) /\ tbl d' = tbl alice_db.
Proof.
  pose proof (add_student_non_success_unchanged no_fail alice_body alice_db) as H.
  destruct (add_student no_fail alice_body alice_db) as [[r d'] tr] eqn:E.
  assert (Hr : forall r0, r = Some r0 -> status r0 <> 200%Z).
  { vm_compute in E. injection E as <- _ _. intros r0 Hr0. injection Hr0 as <-. discriminate. }
  split; [exact Hr | exact (H Hr)].
Defined.

Lemma add_student_storage_error_witness :
  let '(r, d', _) := add_student begin_dropped alice_body empty_db in
  r = Some add_failed /\ tbl d' = tbl empty_db.
Proof.
  apply (add_student_storage_error begin_dropped alice_body empty_db
           (snd (add_student_try begin_dropped alice_body
                   (mkTx (tbl empty_db) (tbl empty_db) (sq empty_db) [OpConnect])))
           "57P01").
  - discriminate.
  - reflexivity.
  - reflexivity.
  - reflexivity.
Defined.

Lemma add_student_success_witness :
  added_response 2 "Bob" "RFID2" "CS-B" "S002" = added_response 2 "Bob" "RFID2" "CS-B" "S002"
  /\ persons (tbl (snd (fst (add_student no_fail bob_body alice_db))))
     = (persons (tbl alice_db) ++ [mkPerson 2 "Bob" "RFID2" "student" (Some "S002")])%list
  /\ ~ In "RFID2" (map rfid_tag (persons (tbl alice_db)))
  /\ ~ In "S002" (id_numbers (tbl alice_db)).
Proof.
  apply (add_student_success no_fail alice_db "Bob" "RFID2" "CS-B" "S002"
           (added_response 2 "Bob" "RFID2" "CS-B" "S002")
           (snd (fst (add_student no_fail bob_body alice_db)))
           (snd (add_student no_fail bob_body alice_db))).
  - vm_compute. reflexivity.
  - reflexivity.
Defined.

Lemma add_student_keeps_unique_tags_witness :
  let '(_, d', _) := add_student no_fail bob_body alice_db in
  NoDup (map rfid_tag (persons (tbl d'))) /\ NoDup (id_numbers (tbl d')).
Proof.
  apply (add_student_keeps_unique_tags no_fail bob_body alice_db).
  - vm_compute. repeat constructor. intros [].
  - vm_compute. repeat constructor. intros [].
Defined.

Lemma add_student_fresh_succeeds_witness :
  fst (fst (add_student no_fail bob_body alice_db))
  = Some (added_response 2 "Bob" "RFID2" "CS-B" "S002").
Proof.
  apply (add_student_fresh_succeeds alice_db "Bob" "RFID2" "CS-B" "S002").
  - repeat split; discriminate.
  - vm_compute. intros [H|[]]. discriminate H.
  - vm_compute. intros [H|[]]. discriminate H.
Defined.

Lemma add_student_releases_witness :
  hd_error (snd (add_student no_fail alice_body alice_db)) = Some OpConnect
  /\ last (snd (add_student no_fail alice_body alice_db)) OpConnect = OpRelease.
Proof. apply add_student_releases. reflexivity. Defined.

Lemma verify_unlinked_student_unknown_section_witness :
  exists js j,
    field "verified_students"
      (body (fst (fst (verify_attendance no_fail 3 (mkVerifyReq (RArr ["T9"]) RUndefined) dana_db))))
      = Some (JSArr js) /\ In j js
    /\ field "name" j = Some (JSStr "Dana") /\ field "rfid_tag" j = Some (JSStr "T9")
    /\ field "section" j = Some (JSStr "Unknown").
Proof.
  apply (verify_unlinked_student_unknown_section no_fail 3 ["T9"] RUndefined dana_db
           (fst (fst (verify_attendance no_fail 3 (mkVerifyReq (RArr ["T9"]) RUndefined) dana_db)))
           (snd (fst (verify_attendance no_fail 3 (mkVerifyReq (RArr ["T9"]) RUndefined) dana_db)))
           (snd (verify_attendance no_fail 3 (mkVerifyReq (RArr ["T9"]) RUndefined) dana_db))
           (mkPerson 1 "Dana" "T9" "student" None)).
  - reflexivity.
  - reflexivity.
  - left. reflexivity.
  - reflexivity.
  - left. reflexivity.
  - intros l [].
Defined.


Lemma get_students_unknown_section_witness :
  get_students_run String.leb true (tbl alice_db) (Some "ZZ-9")
  = mkResponse 200 (JSObj [("success", JSBool true); ("students", JSArr [])]).
Proof.
  apply get_students_unknown_section.
  - discriminate.
  - vm_compute. intros [H|[]]. discriminate H.
Defined.

Lemma verify_success_one_row_per_match_witness :
  exists fresh,
    attendance (tbl (snd (fst (verify_attendance no_fail 7
                   (mkVerifyReq (RArr ["T1"]) RUndefined) two_links_db))))
    = (attendance (tbl two_links_db) ++ fresh)%list
    /\ Permutation (map a_person_id fresh)
                   (map row_person_id (select_students (tbl two_links_db) ["T1"]))
    /\ Forall (fun a => a_classroom_id a = RNum 1) fresh.
Proof.
  apply (verify_success_one_row_per_match no_fail 7 ["T1"] RUndefined two_links_db
           (fst (fst (verify_attendance no_fail 7 (mkVerifyReq (RArr ["T1"]) RUndefined)
                        two_links_db)))
           (snd (fst (verify_attendance no_fail 7 (mkVerifyReq (RArr ["T1"]) RUndefined)
                        two_links_db)))
           (snd (verify_attendance no_fail 7 (mkVerifyReq (RArr ["T1"]) RUndefined)
                   two_links_db))).
  - reflexivity.
  - reflexivity.
Defined.

Lemma get_sections_sorted_permutation_witness :
  exists rows, get_sections_run String.leb true (tbl alice_db)
               = mkResponse 200 (JSObj [("success", JSBool true);
                                        ("sections", JSArr (map section_json rows))])
    /\ Permutation (sections (tbl alice_db)) rows
    /\ Sorted (fun a b => String.leb (section_name a) (section_name b) = true) rows.
Proof. apply get_sections_sorted_permutation. exact String.leb_total. Defined.

Lemma get_students_sorted_by_name_witness :
  Sorted (fun a b => String.leb (row_name a) (row_name b) = true)
         (students_rows String.leb (tbl two_links_db) None).
Proof. apply get_students_sorted_by_name. exact String.leb_total. Defined.


End Attendance.
